(** * UserController: the RESTful controller of the users resource

    A shallow embedding of [src/controllers/UserController.ts].  The class
    holds two static fields (the DAO singleton and the controller
    singleton), one static initializer [getInstance] that binds ten routes
    on an Express application, and ten instance handlers, each of the shape
    [UserController.userDao.m(args).then(x => res.json(x))]. *)

From Stdlib Require Import ZArith List Ascii String.
From stdpp Require Import gmap strings list fin_maps pretty.

Open Scope string_scope.
Set Warnings "-register-all".

(** ** Values *)

(** JavaScript values as they travel through the controller: what
    [req.params.x] and [req.body] evaluate to, what a DAO promise settles
    with, and what [res.json] is given. *)
Inductive jsval : Type :=
| JUndefined
| JNull
| JBool (b : bool)
| JNum (n : Z)
| JStr (s : string)
| JArr (items : list jsval)
| JObj (fields : list (string * jsval)).

(** A settled promise. *)
Inductive Settled (A : Type) : Type :=
| Fulfilled (a : A)
| Rejected (reason : jsval).
Arguments Fulfilled {A} a.
Arguments Rejected {A} reason.

(** ** Express request and response *)

Record Request := mkRequest {
  params : gmap string string;
  query : gmap string string;
  body : jsval
}.

(** [req.params.name]: a property read, [undefined] when absent. *)
Definition param (req : Request) (name : string) : jsval :=
  match params req !! name with
  | Some s => JStr s
  | None => JUndefined
  end.

(** The [Content-Type] header: the media type and its [charset]
    parameter. *)
Record ContentType := mkContentType {
  media : string;
  charset : option string
}.

(** The response object, with what [res.json] consults of the request it
    answers ([res.req]):
    - [sent] is the value last handed to [res.json];
    - [payload] is the body put on the wire, [None] when it is empty;
    - [validators_match v] tells whether the request is a GET or HEAD
      whose validators ([If-None-Match], [If-Modified-Since], without
      [Cache-Control: no-cache]) match the entity made of [v];
    - [head_request] tells whether the request method is HEAD. *)
Record Response := mkResponse {
  statusCode : Z;
  contentType : option ContentType;
  sent : option jsval;
  payload : option jsval;
  validators_match : jsval -> bool;
  head_request : bool
}.

(** The response object Express makes for a request, before any
    middleware or handler has touched it. *)
Definition express_response (validators : jsval -> bool) (head : bool)
    : Response :=
  {| statusCode := 200;
     contentType := None;
     sent := None;
     payload := None;
     validators_match := validators;
     head_request := head |}.

(** The response object Express hands to a handler for a request that is
    neither conditional nor a HEAD. *)
Definition fresh_response : Response :=
  {| statusCode := 200;
     contentType := None;
     sent := None;
     payload := None;
     validators_match := fun _ => false;
     head_request := false |}.

(** [req.fresh], read when the body [v] is about to be sent: only a
    response with a 2xx or 304 status can be fresh. *)
Definition is_fresh (v : jsval) (res : Response) : bool :=
  (((200 <=? statusCode res)%Z && (statusCode res <? 300)%Z)
   || (statusCode res =? 304)%Z)
  && validators_match res v.

(** [JSON.stringify(v)] yields a string for every value but
    [undefined]. *)
Definition stringifies (v : jsval) : bool :=
  match v with
  | JUndefined => false
  | _ => true
  end.

(** The body that goes on the wire with an ordinary status: none for a
    HEAD request, none when there is no string to send. *)
Definition body_on_wire (head : bool) (v : jsval) : option jsval :=
  if head then None else if stringifies v then Some v else None.

(** [res.json(v)] of Express 4: the content type becomes
    [application/json; charset=utf-8] unless one was set, and a string body
    sets the charset of a preset type to [utf-8] too; a fresh request turns
    the status into 304; with status 204 or 304 the content type and the
    body are dropped, with 205 the body is; otherwise the status is left as
    it is and the serialized value is the body. *)
Definition json (v : jsval) (res : Response) : Response :=
  let type :=
    match contentType res with
    | Some t =>
        if stringifies v
        then {| media := media t; charset := Some "utf-8" |}
        else t
    | None => {| media := "application/json"; charset := Some "utf-8" |}
    end in
  let status := if is_fresh v res then 304%Z else statusCode res in
  let stripped := ((status =? 204)%Z || (status =? 304)%Z)%bool in
  {| statusCode := status;
     contentType := if stripped then None else Some type;
     sent := Some v;
     payload := if (stripped || (status =? 205)%Z)%bool then None
                else body_on_wire (head_request res) v;
     validators_match := validators_match res;
     head_request := head_request res |}.

(** ** The DAO interface *)

(** [UserDao] is imported from [../daos/UserDao]; the controller only sees
    its ten promise-returning methods.  [St] is the state behind the DAO. *)
Class UserDaoI (St : Type) := {
  dao_findAllUsers : St -> St * Settled jsval;
  dao_findUserById : jsval -> St -> St * Settled jsval;
  dao_createUser : jsval -> St -> St * Settled jsval;
  dao_updateUser : jsval -> jsval -> St -> St * Settled jsval;
  dao_deleteUser : jsval -> St -> St * Settled jsval;
  dao_deleteAllUsers : St -> St * Settled jsval;
  dao_deleteUsersByUsername : jsval -> St -> St * Settled jsval;
  dao_findUsersByType : jsval -> St -> St * Settled jsval;
  dao_findUsersByRestaurant : jsval -> St -> St * Settled jsval;
  dao_deleteUsersByRestaurant : jsval -> St -> St * Settled jsval
}.

(** A method invocation on the DAO, with its actual arguments. *)
Inductive DaoCall : Type :=
| FindAllUsers
| FindUserById (uid : jsval)
| CreateUser (user : jsval)
| UpdateUser (uid : jsval) (user : jsval)
| DeleteUser (uid : jsval)
| DeleteAllUsers
| DeleteUsersByUsername (username : jsval)
| FindUsersByType (type : jsval)
| FindUsersByRestaurant (rid : jsval)
| DeleteUsersByRestaurant (rid : jsval).

Definition perform `{UserDaoI St} (c : DaoCall) : St -> St * Settled jsval :=
  match c with
  | FindAllUsers => dao_findAllUsers
  | FindUserById uid => dao_findUserById uid
  | CreateUser user => dao_createUser user
  | UpdateUser uid user => dao_updateUser uid user
  | DeleteUser uid => dao_deleteUser uid
  | DeleteAllUsers => dao_deleteAllUsers
  | DeleteUsersByUsername username => dao_deleteUsersByUsername username
  | FindUsersByType type => dao_findUsersByType type
  | FindUsersByRestaurant rid => dao_findUsersByRestaurant rid
  | DeleteUsersByRestaurant rid => dao_deleteUsersByRestaurant rid
  end.

(** ** Routes *)

Inductive Method := GET | POST | PUT | DELETE.

(** The ten instance members of the class (arrow-function fields). *)
Inductive HandlerName :=
| findAllUsers | findUserById | createUser | updateUser | deleteUser
| deleteAllUsers | deleteUsersByUsername | findUsersByType
| findUsersByRestaurant | deleteUsersByRestaurant.

Global Instance Method_eq_dec : EqDecision Method.
Proof. solve_decision. Defined.
Global Instance HandlerName_eq_dec : EqDecision HandlerName.
Proof. solve_decision. Defined.

(** Controller objects and Express applications are heap objects; they are
    told apart by their references. *)
Definition ObjRef := nat.
Definition AppRef := nat.

(** A route binding [app.METHOD(path, this.member)]: the member is a
    closure of the controller instance [route_this]. *)
Record Route := mkRoute {
  route_method : Method;
  route_path : string;
  route_this : ObjRef;
  route_handler : HandlerName
}.

Global Instance Route_eq_dec : EqDecision Route.
Proof. solve_decision. Defined.

(** What a run leaves behind for an observer: the DAO invocations and the
    response writes, in order. *)
Inductive Event :=
| EvDao (c : DaoCall)
| EvJson (v : jsval).

(** ** The world *)

Section Controller.
Context {St : Type} `{UserDaoI St}.

(** The static field [userController], the allocator of objects, the
    route tables of the Express applications, the state behind the static
    field [userDao], and the record of effects. *)
Record World := mkWorld {
  userController : option ObjRef;
  next_ref : ObjRef;
  apps : gmap AppRef (list Route);
  db : St;
  log : list Event
}.

Definition routes_of (w : World) (app : AppRef) : list Route :=
  default [] (apps w !! app).

(** [new UserController()] : the constructor is empty, a fresh object. *)
Definition new_UserController (w : World) : World * ObjRef :=
  ({| userController := userController w;
      next_ref := S (next_ref w);
      apps := apps w;
      db := db w;
      log := log w |}, next_ref w).

Definition set_userController (c : ObjRef) (w : World) : World :=
  {| userController := Some c;
     next_ref := next_ref w;
     apps := apps w;
     db := db w;
     log := log w |}.

(** [app.get], [app.post], [app.put], [app.delete]: push one binding on
    the application's route table. *)
Definition register (app : AppRef) (m : Method) (path : string)
    (this : ObjRef) (h : HandlerName) (w : World) : World :=
  {| userController := userController w;
     next_ref := next_ref w;
     apps := <[app := (routes_of w app ++ [mkRoute m path this h])%list]> (apps w);
     db := db w;
     log := log w |}.

(** [UserController.getInstance(app)] *)
Definition getInstance (app : AppRef) (w : World) : World * ObjRef :=
  match userController w with
  | None =>
      let '(w, c) := new_UserController w in
      let w := set_userController c w in
      let w := register app GET "/api/users" c findAllUsers w in
      let w := register app GET "/api/users/:userid" c findUserById w in
      let w := register app POST "/api/users" c createUser w in
      let w := register app PUT "/api/users/:userid" c updateUser w in
      let w := register app DELETE "/api/users/:userid" c deleteUser w in
      let w := register app DELETE "/api/users" c deleteAllUsers w in
      let w := register app DELETE "/api/users/username/:username/delete" c
                 deleteUsersByUsername w in
      let w := register app GET "/api/users/type/:type" c findUsersByType w in
      let w := register app GET "/api/users/business/:rid" c
                 findUsersByRestaurant w in
      let w := register app DELETE "/api/users/business/:rid" c
                 deleteUsersByRestaurant w in
      (w, c)
  | Some c => (w, c)
  end.

(** ** Handlers *)

(** A handler runs against the world and the response object it was
    given. *)
Definition HM (A : Type) : Type := World -> Response -> World * Response * A.

(** [UserController.userDao.m(args)]: the call is made on the shared DAO
    and yields a promise, here already settled. *)
Definition userDao (c : DaoCall) : HM (Settled jsval) :=
  fun w res =>
    let '(s, r) := perform c (db w) in
    ({| userController := userController w;
        next_ref := next_ref w;
        apps := apps w;
        db := s;
        log := (log w ++ [EvDao c])%list |}, res, r).

(** [res.json(v)] inside a handler. *)
Definition res_json (v : jsval) : HM unit :=
  fun w res =>
    ({| userController := userController w;
        next_ref := next_ref w;
        apps := apps w;
        db := db w;
        log := (log w ++ [EvJson v])%list |}, json v res, tt).

(** [p.then(f)]: [f] runs on fulfilment only; a rejection is passed on
    with its reason. *)
Definition then_ {A B : Type} (p : HM (Settled A)) (f : A -> HM B)
    : HM (Settled B) :=
  fun w res =>
    match p w res with
    | (w1, res1, Fulfilled a) =>
        let '(w2, res2, b) := f a w1 res1 in (w2, res2, Fulfilled b)
    | (w1, res1, Rejected e) => (w1, res1, Rejected e)
    end.

Definition Handler : Type := Request -> HM (Settled unit).

Definition findAllUsers_h : Handler := fun req =>
  then_ (userDao FindAllUsers) (fun users => res_json users).

Definition findUserById_h : Handler := fun req =>
  then_ (userDao (FindUserById (param req "userid")))
        (fun user => res_json user).

Definition createUser_h : Handler := fun req =>
  then_ (userDao (CreateUser (body req))) (fun user => res_json user).

Definition updateUser_h : Handler := fun req =>
  then_ (userDao (UpdateUser (param req "userid") (body req)))
        (fun status => res_json status).

Definition deleteUser_h : Handler := fun req =>
  then_ (userDao (DeleteUser (param req "userid")))
        (fun status => res_json status).

Definition deleteAllUsers_h : Handler := fun req =>
  then_ (userDao DeleteAllUsers) (fun status => res_json status).

Definition deleteUsersByUsername_h : Handler := fun req =>
  then_ (userDao (DeleteUsersByUsername (param req "username")))
        (fun status => res_json status).

Definition findUsersByType_h : Handler := fun req =>
  then_ (userDao (FindUsersByType (param req "type")))
        (fun users => res_json users).

Definition findUsersByRestaurant_h : Handler := fun req =>
  then_ (userDao (FindUsersByRestaurant (param req "rid")))
        (fun users => res_json users).

Definition deleteUsersByRestaurant_h : Handler := fun req =>
  then_ (userDao (DeleteUsersByRestaurant (param req "rid")))
        (fun status => res_json status).

(** The closure behind each member. *)
Definition handler (h : HandlerName) : Handler :=
  match h with
  | findAllUsers => findAllUsers_h
  | findUserById => findUserById_h
  | createUser => createUser_h
  | updateUser => updateUser_h
  | deleteUser => deleteUser_h
  | deleteAllUsers => deleteAllUsers_h
  | deleteUsersByUsername => deleteUsersByUsername_h
  | findUsersByType => findUsersByType_h
  | findUsersByRestaurant => findUsersByRestaurant_h
  | deleteUsersByRestaurant => deleteUsersByRestaurant_h
  end.

(** Express serving one request with a handler: a new response object is
    made for it. *)
Definition serve (h : HandlerName) (req : Request) (w : World)
    : World * Response * Settled unit :=
  handler h req w fresh_response.

End Controller.

Arguments World St : clear implicits.

(** ** The inputs and the store call of each handler *)

(** The path parameter a handler reads, as named in the route it is bound
    to by [getInstance]. *)
Definition route_param (h : HandlerName) : option string :=
  match h with
  | findAllUsers | createUser | deleteAllUsers => None
  | findUserById | updateUser | deleteUser => Some "userid"
  | deleteUsersByUsername => Some "username"
  | findUsersByType => Some "type"
  | findUsersByRestaurant | deleteUsersByRestaurant => Some "rid"
  end.

Definition path_arg (h : HandlerName) (req : Request) : jsval :=
  match route_param h with
  | Some name => param req name
  | None => JUndefined
  end.

(** The contract table of the specification (section 4.1): the store call
    of each operation, given the path parameter and the request body. *)
Definition spec_store_call (h : HandlerName) (path : jsval) (b : jsval)
    : DaoCall :=
  match h with
  | findAllUsers => FindAllUsers
  | findUserById => FindUserById path
  | createUser => CreateUser b
  | updateUser => UpdateUser path b
  | deleteUser => DeleteUser path
  | deleteAllUsers => DeleteAllUsers
  | deleteUsersByUsername => DeleteUsersByUsername path
  | findUsersByType => FindUsersByType path
  | findUsersByRestaurant => FindUsersByRestaurant path
  | deleteUsersByRestaurant => DeleteUsersByRestaurant path
  end.

Definition designated_call (h : HandlerName) (req : Request) : DaoCall :=
  spec_store_call h (path_arg h req) (body req).

Definition all_handlers : list HandlerName :=
  [findAllUsers; findUserById; createUser; updateUser; deleteUser;
   deleteAllUsers; deleteUsersByUsername; findUsersByType;
   findUsersByRestaurant; deleteUsersByRestaurant].

(** The same request with one path parameter set. *)
Definition with_param (name value : string) (req : Request) : Request :=
  {| params := <[name := value]> (params req);
     query := query req;
     body := body req |}.

(** ** The HTTP surface *)

(** A route path as the router reads it: literal segments and parameter
    holes (the name of a hole is not visible to a client). *)
Inductive Segment := Lit (s : string) | Hole.

Global Instance Segment_eq_dec : EqDecision Segment.
Proof. solve_decision. Defined.

Fixpoint split_slash (cur : string) (p : string) : list string :=
  match p with
  | EmptyString => [cur]
  | String c rest =>
      if Ascii.eqb c "/"%char then cur :: split_slash EmptyString rest
      else split_slash (cur ++ String c EmptyString) rest
  end.

Definition segment_of (s : string) : Segment :=
  match s with
  | String ":"%char _ => Hole
  | _ => Lit s
  end.

(** Segments of an Express path such as ["/api/users/:userid"]. *)
Definition parse_path (p : string) : list Segment :=
  match split_slash EmptyString p with
  | EmptyString :: segs => map segment_of segs
  | segs => map segment_of segs
  end.

Definition surface (rs : list Route) : list (Method * list Segment) :=
  map (fun r => (route_method r, parse_path (route_path r))) rs.

(** The HTTP surface table of the specification (section 6), row by row,
    with [{id}], [{username}], [{type}] and [{rid}] as holes. *)
Definition spec_http_surface : list (Method * list Segment) :=
  [ (GET, [Lit "users"]);
    (GET, [Lit "users"; Hole]);
    (POST, [Lit "users"]);
    (PUT, [Lit "users"; Hole]);
    (DELETE, [Lit "users"; Hole]);
    (DELETE, [Lit "users"]);
    (DELETE, [Lit "users"; Lit "username"; Hole; Lit "delete"]);
    (GET, [Lit "users"; Lit "type"; Hole]);
    (GET, [Lit "users"; Lit "business"; Hole]);
    (DELETE, [Lit "users"; Lit "business"; Hole]) ].

Definition under_root (root : string) (row : Method * list Segment) : Prop :=
  exists rest, snd row = Lit root :: rest.

Definition under_api (row : Method * list Segment) : Method * list Segment :=
  (fst row, Lit "api" :: snd row).

(** Repeated initialization, one call per application in the list. *)
Fixpoint getInstance_each {St : Type} (l : list AppRef) (w : World St)
    : World St * list ObjRef :=
  match l with
  | [] => (w, [])
  | app :: l' =>
      let '(w1, c) := getInstance app w in
      let '(w2, cs) := getInstance_each l' w1 in
      (w2, c :: cs)
  end.

(** ** The store *)

Module SpecStore.

(** Modelled from the spec: the store behind [UserDao]
    ([src/daos/UserDao.ts] is not part of the sources at hand).  The
    specification (sections 3, 4.1, 6 and 8) gives its interface: users
    are records with a store-assigned [id] next to the fields they were
    created with ([username], [type], [restaurant], ...); [findAll]
    yields the sequence of users, [findById] a user or empty (null),
    [create] the created user with its assigned id, and the mutations a
    status object with a count.  An id that is not a string is an
    invalid id format, a failure of the store (section 7). *)
Record UserRec := mkUser {
  user_id : nat;
  user_fields : list (string * jsval)
}.

Definition Store := list UserRec.

Definition id_string (u : UserRec) : string := pretty (user_id u).

Definition user_json (u : UserRec) : jsval :=
  JObj (("id", JStr (id_string u)) :: user_fields u).

Definition fields_of (b : jsval) : list (string * jsval) :=
  match b with
  | JObj fs => fs
  | _ => []
  end.

Fixpoint get_field (k : string) (fs : list (string * jsval))
    : option jsval :=
  match fs with
  | [] => None
  | (k', v) :: fs' => if String.eqb k k' then Some v else get_field k fs'
  end.

(** Exact match of a string-valued field. *)
Definition field_is (k : string) (v : jsval) (u : UserRec) : bool :=
  match v, get_field k (user_fields u) with
  | JStr a, Some (JStr b) => String.eqb a b
  | _, _ => false
  end.

Definition has_id (i : string) (u : UserRec) : bool :=
  String.eqb (id_string u) i.

Definition fresh_id (s : Store) : nat := S (max_list (map user_id s)).

Definition status (k : string) (n : nat) : jsval :=
  JObj [(k, JNum (Z.of_nat n))].

Definition invalid_id : jsval := JStr "invalid id format".

(** Fields of the update override the stored ones of the same name. *)
Definition merge_fields (new old : list (string * jsval))
    : list (string * jsval) :=
  (new ++ List.filter
            (fun kv => negb (existsb (fun kv' => String.eqb (fst kv) (fst kv')) new))
            old)%list.

(** Modelled from the spec: [findAll() -> sequence<User>] of the missing
    [UserDao]. *)
Definition findAll (s : Store) : Store * Settled jsval :=
  (s, Fulfilled (JArr (map user_json s))).

(** Modelled from the spec: [findById(id) -> User|empty] of the missing
    [UserDao]; empty is [null]. *)
Definition findById (uid : jsval) (s : Store) : Store * Settled jsval :=
  match uid with
  | JStr i =>
      (s, Fulfilled match List.find (has_id i) s with
                    | Some u => user_json u
                    | None => JNull
                    end)
  | _ => (s, Rejected invalid_id)
  end.

(** Modelled from the spec: [create(fields) -> User] of the missing
    [UserDao]: the created user, the fields of the body plus an id the
    store assigns, one no stored user has. *)
Definition create (b : jsval) (s : Store) : Store * Settled jsval :=
  let u := {| user_id := fresh_id s; user_fields := fields_of b |} in
  ((s ++ [u])%list, Fulfilled (user_json u)).

(** Modelled from the spec: [update(id, fields) -> StatusResult] of the
    missing [UserDao]; the status is a modified-count. *)
Definition update (uid b : jsval) (s : Store) : Store * Settled jsval :=
  match uid with
  | JStr i =>
      (map (fun u => if has_id i u
                     then {| user_id := user_id u;
                             user_fields :=
                               merge_fields (fields_of b) (user_fields u) |}
                     else u) s,
       Fulfilled (status "modified" (length (List.filter (has_id i) s))))
  | _ => (s, Rejected invalid_id)
  end.

(** Modelled from the spec: the deletions of the missing [UserDao] remove
    the matching users and fulfil with a status object holding their
    number. *)
Definition delete_where (p : UserRec -> bool) (s : Store)
    : Store * Settled jsval :=
  (List.filter (fun u => negb (p u)) s,
   Fulfilled (status "deleted" (length (List.filter p s)))).

(** Modelled from the spec: [deleteById(id) -> StatusResult]. *)
Definition deleteById (uid : jsval) (s : Store) : Store * Settled jsval :=
  match uid with
  | JStr i => delete_where (has_id i) s
  | _ => (s, Rejected invalid_id)
  end.

(** Modelled from the spec: [deleteAll() -> StatusResult]. *)
Definition deleteAll (s : Store) : Store * Settled jsval :=
  delete_where (fun _ => true) s.

(** Modelled from the spec: [deleteByUsername(name) -> StatusResult]. *)
Definition deleteByUsername (name : jsval) (s : Store)
    : Store * Settled jsval :=
  delete_where (field_is "username" name) s.

(** Modelled from the spec: [findByType(type) -> sequence<User>], an
    exact-match filter. *)
Definition findByType (type : jsval) (s : Store) : Store * Settled jsval :=
  (s, Fulfilled (JArr (map user_json (List.filter (field_is "type" type) s)))).

(** Modelled from the spec: [findByRestaurant(rid) -> sequence<User>]. *)
Definition findByRestaurant (rid : jsval) (s : Store)
    : Store * Settled jsval :=
  (s, Fulfilled
        (JArr (map user_json (List.filter (field_is "restaurant" rid) s)))).

(** Modelled from the spec: [deleteByRestaurant(rid) -> StatusResult]. *)
Definition deleteByRestaurant (rid : jsval) (s : Store)
    : Store * Settled jsval :=
  delete_where (field_is "restaurant" rid) s.

(** Modelled from the spec: [UserDao] as the store above, method by
    method after the store-call column of section 4.1. *)
#[global] Instance dao : UserDaoI Store := {
  dao_findAllUsers := findAll;
  dao_findUserById := findById;
  dao_createUser := create;
  dao_updateUser := update;
  dao_deleteUser := deleteById;
  dao_deleteAllUsers := deleteAll;
  dao_deleteUsersByUsername := deleteByUsername;
  dao_findUsersByType := findByType;
  dao_findUsersByRestaurant := findByRestaurant;
  dao_deleteUsersByRestaurant := deleteByRestaurant
}.

(** The world at process start, with the given users in the store. *)
Definition start (s : Store) : World Store :=
  {| userController := None; next_ref := 0; apps := ∅; db := s; log := [] |}.

End SpecStore.

(** Routes bound on [app] between world [w] and the later world [w1]. *)
Definition new_routes {St : Type} (app : AppRef) (w w1 : World St)
    : list Route :=
  drop (length (routes_of w app)) (routes_of w1 app).

Definition under_prefix (root : list string) (row : Method * list Segment)
    : Prop :=
  exists rest, snd row = (map Lit root ++ rest)%list.

(** The parameter names a route path declares, in order. *)
Definition path_params (p : string) : list string :=
  omap (fun s => match s with
                 | String ":"%char name => Some name
                 | _ => None
                 end)
       (split_slash EmptyString p).

(** ** Sample requests and worlds *)

Module Runs.
Import SpecStore.

(** A request with no path parameter and no body. *)
Definition bare : Request :=
  {| params := ∅; query := ∅; body := JUndefined |}.

Definition get_42 : Request :=
  {| params := {[ "userid" := "42" ]}; query := ∅; body := JUndefined |}.

Definition put_1 : Request :=
  {| params := {[ "userid" := "1" ]};
     query := ∅;
     body := JObj [("type", JStr "admin")] |}.

Definition bob : UserRec :=
  {| user_id := 1;
     user_fields := [("username", JStr "bob"); ("type", JStr "standard")] |}.

(** The routes bound by the first [getInstance] of a process, on
    application 0. *)
Definition boot_routes : list Route :=
  new_routes 0 (start []) (fst (getInstance 0 (start []))).

End Runs.

(** ** Runs of the process *)

(** The members that read [req.body]. *)
Definition reads_body (h : HandlerName) : bool :=
  match h with
  | createUser | updateUser => true
  | _ => false
  end.

(** One operation of the running process: a call of [getInstance] on an
    application, or Express invoking a member on a request (with a response
    object of its own). *)
Inductive Op :=
| Init (app : AppRef)
| Serve (h : HandlerName) (req : Request).

Definition step {St : Type} `{UserDaoI St} (op : Op) (w : World St)
    : World St :=
  match op with
  | Init app => fst (getInstance app w)
  | Serve h req => fst (fst (serve h req w))
  end.

Fixpoint run {St : Type} `{UserDaoI St} (ops : list Op) (w : World St)
    : World St :=
  match ops with
  | [] => w
  | op :: ops' => run ops' (step op w)
  end.

(** The application of the first [getInstance] call of a run, if any. *)
Fixpoint first_init (ops : list Op) : option AppRef :=
  match ops with
  | [] => None
  | Init app :: _ => Some app
  | Serve _ _ :: ops' => first_init ops'
  end.

(** The number of requests served in a run. *)
Fixpoint served (ops : list Op) : nat :=
  match ops with
  | [] => 0
  | Init _ :: ops' => served ops'
  | Serve _ _ :: ops' => S (served ops')
  end.

Definition is_dao_call (e : Event) : bool :=
  match e with EvDao _ => true | EvJson _ => false end.

Definition is_write (e : Event) : bool :=
  match e with EvDao _ => false | EvJson _ => true end.

Definition dao_calls (l : list Event) : nat :=
  length (List.filter is_dao_call l).

Definition writes (l : list Event) : nat :=
  length (List.filter is_write l).

(** ** Dispatching a request over the bound routes *)

(** The method of a request; [VOther] stands for every method the
    controller binds nothing for (OPTIONS, PATCH, ...). *)
Inductive Verb :=
| VGet | VPost | VPut | VDelete | VHead
| VOther (name : string).

(** Whether the handler of a binding made with [app.METHOD] is invoked for
    a request method: its own method, and HEAD for a GET binding (no
    binding is made with [app.head]). *)
Definition handles (m : Method) (v : Verb) : bool :=
  match m, v with
  | GET, VGet | GET, VHead => true
  | POST, VPost => true
  | PUT, VPut => true
  | DELETE, VDelete => true
  | _, _ => false
  end.

(** The router compares literal segments without regard to letter case
    unless told otherwise; [lower] folds ASCII letters. *)
Definition lower_ascii (c : ascii) : ascii :=
  let n := nat_of_ascii c in
  if ((65 <=? n)%nat && (n <=? 90)%nat)%bool
  then ascii_of_nat (n + 32) else c.

Fixpoint lower (s : string) : string :=
  match s with
  | EmptyString => EmptyString
  | String c s' => String (lower_ascii c) (lower s')
  end.

(** Letter case as the router sees it: as written when case sensitive
    routing is on, folded otherwise. *)
Definition fold_case (case_sensitive : bool) (s : string) : string :=
  if case_sensitive then s else lower s.

(** A pattern matches the segments of a path one by one: a literal
    matches the same word, a parameter any non-empty segment; the path must
    end where the pattern does, but for one trailing slash (strict routing
    is off), which shows as one empty last segment. *)
Fixpoint seg_match (cs : bool) (pat : list Segment) (url : list string)
    : bool :=
  match pat, url with
  | [], [] => true
  | [], [u] => String.eqb u EmptyString
  | Lit s :: pat', u :: url' =>
      String.eqb (fold_case cs s) (fold_case cs u) && seg_match cs pat' url'
  | Hole :: pat', u :: url' =>
      negb (String.eqb u EmptyString) && seg_match cs pat' url'
  | _, _ => false
  end.

(** Whether the router invokes the handler of binding [r] for a request
    with method [v] and path [path] (the part of the URL before the query
    string, starting with a slash). *)
Definition route_serves (cs : bool) (v : Verb) (path : string) (r : Route)
    : bool :=
  match split_slash EmptyString path with
  | EmptyString :: segs =>
      handles (route_method r) v
      && seg_match cs (parse_path (route_path r)) segs
  | _ => false
  end.

(** Two patterns that no path can match both: they carry different words
    at some position, or one goes on after the other has ended with more
    than an empty last segment. *)
Fixpoint apart (p q : list Segment) : bool :=
  match p, q with
  | [], [] => false
  | [], [Lit s] => negb (String.eqb s EmptyString)
  | [Lit s], [] => negb (String.eqb s EmptyString)
  | [], _ => true
  | _, [] => true
  | Lit a :: p', Lit b :: q' =>
      negb (String.eqb (lower a) (lower b)) || apart p' q'
  | _ :: p', _ :: q' => apart p' q'
  end.

Definition routes_apart (r1 r2 : Route) : bool :=
  negb (bool_decide (route_method r1 = route_method r2))
  || apart (parse_path (route_path r1)) (parse_path (route_path r2)).

Fixpoint exclusive (rs : list Route) : bool :=
  match rs with
  | [] => true
  | r :: rs' => forallb (routes_apart r) rs' && exclusive rs'
  end.

(** ** Sample runs *)

Module Samples.

(** The request of [Runs.get_42] with a query string and a body added. *)
Definition noisy_get_42 : Request :=
  {| params := {[ "userid" := "42" ]};
     query := {[ "verbose" := "1" ]};
     body := JObj [("username", JStr "eve")] |}.

(** The response object of a GET that revalidates with
    [If-None-Match: *], which matches every entity. *)
Definition revalidating : Response :=
  express_response (fun _ => true) false.

(** The get-by-id binding of the first controller of a process. *)
Definition by_id_route : Route :=
  mkRoute GET "/api/users/:userid" 0 findUserById.

(** The world after the first [getInstance] of a process, on
    application 0. *)
Definition booted : World SpecStore.Store :=
  fst (getInstance 0 (SpecStore.start [])).

(** Requests and repeated initializations, on other applications too. *)
Definition later_ops : list Op :=
  [Serve createUser Runs.put_1; Init 1; Serve deleteAllUsers Runs.bare;
   Init 0].

(** A request served before the first initialization, which is made on
    application 3. *)
Definition early_ops : list Op :=
  [Serve findAllUsers Runs.bare; Init 3; Serve createUser Runs.put_1;
   Init 4].

End Samples.

(** * Properties *)

(** ** Handlers, for any DAO *)

Section HandlerFacts.
Context {St : Type} `{UserDaoI St}.

Implicit Types (w : World St) (res : Response) (req : Request).

(** Every member is the same two-step pipeline over its own store call. *)
Lemma handler_run h req :
  handler h req = then_ (userDao (designated_call h req)) res_json.
Proof. destruct h; reflexivity. Qed.

Lemma pipeline_fulfilled c w res s' v :
  perform c (db w) = (s', Fulfilled v) ->
  then_ (userDao c) res_json w res =
    ({| userController := userController w;
        next_ref := next_ref w;
        apps := apps w;
        db := s';
        log := ((log w ++ [EvDao c]) ++ [EvJson v])%list |},
     json v res, Fulfilled tt).
Proof. intros E. unfold then_, userDao, res_json. rewrite E. reflexivity. Qed.

Lemma pipeline_rejected c w res s' e :
  perform c (db w) = (s', Rejected e) ->
  then_ (userDao c) res_json w res =
    ({| userController := userController w;
        next_ref := next_ref w;
        apps := apps w;
        db := s';
        log := (log w ++ [EvDao c])%list |},
     res, Rejected e).
Proof. intros E. unfold then_, userDao, res_json. rewrite E. reflexivity. Qed.


(** C3. For each member: if the store call it delegates to rejects
    with [e], nothing is caught and nothing is written; the returned
    promise rejects with the same [e], the response object is the one
    that was passed in, no response write is recorded, and the
    controller's static field and the route tables are as before. *)
Theorem handler_rejection_propagates h req w res s' e :
  perform (designated_call h req) (db w) = (s', Rejected e) ->
  let '(w', res', out) := handler h req w res in
  out = Rejected e /\ res' = res /\
  log w' = (log w ++ [EvDao (designated_call h req)])%list /\
  userController w' = userController w /\ apps w' = apps w /\
  next_ref w' = next_ref w.
Proof.
  intros E. rewrite handler_run, (pipeline_rejected _ _ _ _ _ E).
  simpl. auto 10.
Qed.


Lemma json_express_response validators head v :
  json v (express_response validators head)
  = if validators v
    then {| statusCode := 304; contentType := None; sent := Some v;
            payload := None; validators_match := validators;
            head_request := head |}
    else {| statusCode := 200;
            contentType := Some (mkContentType "application/json"
                                   (Some "utf-8"));
            sent := Some v; payload := body_on_wire head v;
            validators_match := validators; head_request := head |}.
Proof.
  unfold json, is_fresh, express_response. cbn.
  destruct (validators v); reflexivity.
Qed.


End HandlerFacts.

(** ** The singleton initializer *)

Section Singleton.
Context {St : Type}.

Implicit Types (w : World St) (app : AppRef) (c : ObjRef).

Lemma routes_of_register app m p c h w :
  routes_of (register app m p c h w) app
  = (routes_of w app ++ [mkRoute m p c h])%list.
Proof.
  unfold routes_of at 1. unfold register; simpl.
  by rewrite lookup_insert_eq.
Qed.

Lemma apps_register_ne app a m p c h w :
  app ≠ a -> apps (register app m p c h w) !! a = apps w !! a.
Proof. intros Hne. unfold register; simpl. by rewrite lookup_insert_ne. Qed.

(** Once the static field is set, the initializer is the identity on the
    world, whatever application it is given. *)
Lemma getInstance_initialized w c app :
  userController w = Some c -> getInstance app w = (w, c).
Proof. intros E. unfold getInstance. by rewrite E. Qed.

(** The first call, effect by effect. *)
Lemma getInstance_first w app :
  userController w = None ->
  let w1 := fst (getInstance app w) in
  let c := next_ref w in
  snd (getInstance app w) = c /\
  userController w1 = Some c /\
  routes_of w1 app =
    (routes_of w app ++
     [ mkRoute GET "/api/users" c findAllUsers;
       mkRoute GET "/api/users/:userid" c findUserById;
       mkRoute POST "/api/users" c createUser;
       mkRoute PUT "/api/users/:userid" c updateUser;
       mkRoute DELETE "/api/users/:userid" c deleteUser;
       mkRoute DELETE "/api/users" c deleteAllUsers;
       mkRoute DELETE "/api/users/username/:username/delete" c
         deleteUsersByUsername;
       mkRoute GET "/api/users/type/:type" c findUsersByType;
       mkRoute GET "/api/users/business/:rid" c findUsersByRestaurant;
       mkRoute DELETE "/api/users/business/:rid" c
         deleteUsersByRestaurant ])%list /\
  (forall a, app ≠ a -> apps w1 !! a = apps w !! a) /\
  db w1 = db w /\ log w1 = log w.
Proof.
  intros E. unfold getInstance. rewrite E.
  unfold new_UserController. cbv beta iota zeta. cbn [fst snd].
  split; [reflexivity|]. split; [reflexivity|]. split.
  - rewrite !routes_of_register. rewrite <- !app_assoc. reflexivity.
  - split; [|split; reflexivity].
    intros a Hne. by rewrite !apps_register_ne.
Qed.

Lemma getInstance_each_initialized l w c :
  userController w = Some c ->
  getInstance_each l w = (w, replicate (length l) c).
Proof.
  intros E. induction l as [|app l IH]; simpl.
  - reflexivity.
  - rewrite (getInstance_initialized w c app E), IH. reflexivity.
Qed.

Lemma new_routes_first w app :
  userController w = None ->
  routes_of (fst (getInstance app w)) app
  = (routes_of w app ++ new_routes app w (fst (getInstance app w)))%list.
Proof.
  intros E. unfold new_routes.
  destruct (getInstance_first w app E) as (_ & _ & -> & _).
  by rewrite drop_app_length.
Qed.

(** Each binding declares in its path exactly the parameter its member
    reads from [req.params]. *)
Lemma bound_routes_declare_params w app :
  userController w = None ->
  Forall (fun r => path_params (route_path r)
                   = option_list (route_param (route_handler r)))
         (new_routes app w (fst (getInstance app w))).
Proof.
  intros E. unfold new_routes.
  destruct (getInstance_first w app E) as (_ & _ & -> & _).
  rewrite drop_app_length.
  repeat (apply List.Forall_cons; [reflexivity|]). apply List.Forall_nil.
Qed.

Lemma getInstance_constructs w app :
  userController w = None ->
  snd (getInstance app w) = snd (new_UserController w) /\
  next_ref (fst (getInstance app w)) = next_ref (fst (new_UserController w)).
Proof. intros E. unfold getInstance. rewrite E. split; reflexivity. Qed.

(** C2. On a world whose static field is still null, [getInstance]
    constructs the controller, the one object [new UserController()]
    allocates and no other, stores it in the static field, and extends the
    route table of the given application by ten bindings, one for each
    member, each bound to that controller and to a (method, path) pair of
    its own; in the world it leaves, every later call, on any application
    and any number of times, changes nothing (it constructs nothing and
    binds nothing) and returns that same controller. *)
Theorem getInstance_idempotent w app :
  userController w = None ->
  let '(w1, c) := getInstance app w in
  let added := new_routes app w w1 in
  c = snd (new_UserController w) /\
  next_ref w1 = next_ref (fst (new_UserController w)) /\
  next_ref w1 = S (next_ref w) /\
  userController w1 = Some c /\
  routes_of w1 app = (routes_of w app ++ added)%list /\
  map route_handler added = all_handlers /\
  NoDup all_handlers /\
  NoDup (map (fun r => (route_method r, route_path r)) added) /\
  Forall (fun r => route_this r = c) added /\
  (forall a, app ≠ a -> apps w1 !! a = apps w !! a) /\
  (forall app', getInstance app' w1 = (w1, c)) /\
  (forall l, getInstance_each l w1 = (w1, replicate (length l) c)).
Proof.
  intros E.
  pose proof (new_routes_first w app E) as Hnew.
  destruct (getInstance_constructs w app E) as (Hk & Hn).
  destruct (getInstance_first w app E) as (Hc & Hs & Hr & Ha & _).
  destruct (getInstance app w) as [w1 c]. cbn [fst snd] in *.
  cbv zeta.
  split; [exact Hk|]. split; [exact Hn|]. split; [exact Hn|].
  subst c. split; [exact Hs|].
  assert (Hadd : new_routes app w w1 = drop (length (routes_of w app))
                   (routes_of w1 app)) by reflexivity.
  rewrite Hr, drop_app_length in Hadd.
  split; [exact Hnew|]. rewrite Hadd.
  split; [reflexivity|].
  split; [apply (bool_decide_unpack _); vm_compute; exact I|].
  split; [apply (bool_decide_unpack _); vm_compute; exact I|].
  split; [repeat constructor|].
  split; [exact Ha|].
  split.
  - intros app'. by apply getInstance_initialized.
  - intros l. by apply getInstance_each_initialized.
Qed.

(** C10. After the first initialization on [app1], a call with another
    application [app2] leaves the world as it was: nothing is bound on
    [app2], whose route table is the one it had at the start, and the
    call returns the controller of the first call, the one the ten
    bindings on [app1] belong to. *)
Theorem getInstance_ignores_later_app w app1 app2 :
  userController w = None ->
  app1 ≠ app2 ->
  let '(w1, c1) := getInstance app1 w in
  let '(w2, c2) := getInstance app2 w1 in
  c2 = c1 /\ w2 = w1 /\
  apps w2 !! app2 = apps w !! app2 /\
  new_routes app2 w w2 = [] /\
  length (new_routes app1 w w2) = 10 /\
  Forall (fun r => route_this r = c1) (new_routes app1 w w2).
Proof.
  intros E Hne.
  destruct (getInstance_first w app1 E) as (Hc & Hs & Hr & Ha & _).
  destruct (getInstance app1 w) as [w1 c1]. cbn [fst snd] in *.
  rewrite (getInstance_initialized w1 c1 app2) by congruence.
  subst c1.
  split; [reflexivity|]. split; [reflexivity|].
  split; [by apply Ha|].
  split.
  - unfold new_routes, routes_of. rewrite (Ha app2 Hne). apply drop_all.
  - unfold new_routes. rewrite Hr, drop_app_length.
    split; [reflexivity|repeat constructor].
Qed.

(** C5 (as amended). The ten bindings of the first call are, row by
    row and with the stated methods, the paths of the HTTP surface table
    each prefixed by [/api]: all of them lie under [/api/users]. *)
Theorem routes_under_api_users w app :
  userController w = None ->
  let added := new_routes app w (fst (getInstance app w)) in
  surface added = map under_api spec_http_surface /\
  Forall (under_prefix ["api"; "users"]) (surface added).
Proof.
  intros E. cbv zeta. unfold new_routes.
  destruct (getInstance_first w app E) as (_ & _ & -> & _).
  rewrite drop_app_length.
  assert (Hs : forall c : ObjRef, surface
    [ mkRoute GET "/api/users" c findAllUsers;
      mkRoute GET "/api/users/:userid" c findUserById;
      mkRoute POST "/api/users" c createUser;
      mkRoute PUT "/api/users/:userid" c updateUser;
      mkRoute DELETE "/api/users/:userid" c deleteUser;
      mkRoute DELETE "/api/users" c deleteAllUsers;
      mkRoute DELETE "/api/users/username/:username/delete" c
        deleteUsersByUsername;
      mkRoute GET "/api/users/type/:type" c findUsersByType;
      mkRoute GET "/api/users/business/:rid" c findUsersByRestaurant;
      mkRoute DELETE "/api/users/business/:rid" c deleteUsersByRestaurant ]
    = map under_api spec_http_surface) by (intros c; reflexivity).
  rewrite Hs. split; [reflexivity|].
  cbv [spec_http_surface under_prefix under_api map fst snd Datatypes.app].
  repeat (apply List.Forall_cons; [eexists; reflexivity|]).
  apply List.Forall_nil.
Qed.

End Singleton.

(** ** The controller over the store of the specification *)

Section StoreFacts.
Import SpecStore.

Implicit Types (w : World Store) (s : Store) (req : Request).

Lemma param_with_param name value req :
  param (with_param name value req) name = JStr value.
Proof. unfold param, with_param; simpl. by rewrite lookup_insert_eq. Qed.

Lemma filter_none {A : Type} (l : list A) :
  List.filter (fun _ => negb true) l = [].
Proof. induction l as [|x l IH]; simpl; [reflexivity|exact IH]. Qed.

Lemma find_app_fresh {A : Type} (p : A -> bool) (l : list A) (u : A) :
  (forall x, In x l -> p x = false) ->
  p u = true ->
  List.find p (l ++ [u])%list = Some u.
Proof.
  intros Hl Hu. induction l as [|x l IH]; simpl.
  - by rewrite Hu.
  - rewrite (Hl x) by (left; reflexivity).
    apply IH. intros y Hy. apply Hl. right; exact Hy.
Qed.

(** The id the store assigns is the id of no stored user. *)
Lemma has_id_fresh s u :
  In u s -> has_id (pretty (fresh_id s)) u = false.
Proof.
  intros Hin. unfold has_id, id_string.
  apply String.eqb_neq. intros Heq.
  apply (inj pretty) in Heq.
  assert (Hle : user_id u <= max_list (map user_id s)).
  { apply max_list_elem_of_le, list_elem_of_In, in_map, Hin. }
  unfold fresh_id in Heq. lia.
Qed.

Lemma has_id_self u : has_id (id_string u) u = true.
Proof. unfold has_id. apply String.eqb_refl. Qed.

Lemma findById_after_create b s :
  findById (JStr (pretty (fresh_id s))) (fst (create b s))
  = (fst (create b s),
     Fulfilled (user_json (mkUser (fresh_id s) (fields_of b)))).
Proof.
  unfold create, findById; cbn [fst snd].
  rewrite find_app_fresh; [reflexivity| |].
  - intros x Hx. by apply has_id_fresh.
  - apply (has_id_self (mkUser (fresh_id s) (fields_of b))).
Qed.



(** The status object of a mutation is not a user record. *)
Lemma status_not_user k n u : k <> "id" -> status k n <> user_json u.
Proof. intros Hk Heq. unfold status, user_json in Heq. congruence. Qed.

End StoreFacts.


(** ** Concrete runs *)

(** The scenario of the specification, section 8, on the modelled store:
    create bob, read him back, delete him, read again. *)
Example scenario_bob :
  let post := {| params := ∅; query := ∅;
                 body := JObj [("username", JStr "bob");
                               ("type", JStr "standard")] |} in
  let by_id := with_param "userid" "1" Runs.bare in
  let '(w1, r1, _) := serve createUser post (SpecStore.start []) in
  let '(w2, r2, _) := serve findUserById by_id w1 in
  let '(w3, r3, _) := serve deleteUser by_id w2 in
  let '(w4, r4, _) := serve findUserById by_id w3 in
  sent r1 = Some (SpecStore.user_json Runs.bob) /\
  sent r2 = Some (SpecStore.user_json Runs.bob) /\
  sent r3 = Some (SpecStore.status "deleted" 1) /\
  sent r4 = Some JNull /\ statusCode r4 = 200%Z.
Proof. vm_compute. repeat split. Qed.

(** C5 (as stated) fails: the bindings of a fresh process are not the
    rows of the HTTP surface table; no route is bound at GET [/users], and
    the bound paths are not under a [/users] root. *)
Lemma routes_not_under_users_root :
  surface Runs.boot_routes <> spec_http_surface /\
  ~ In (GET, [Lit "users"]) (surface Runs.boot_routes) /\
  ~ Forall (under_prefix ["users"]) (surface Runs.boot_routes).
Proof.
  assert (E : surface Runs.boot_routes = map under_api spec_http_surface)
    by (vm_compute; reflexivity).
  rewrite E. cbv [spec_http_surface under_api map fst snd].
  split; [discriminate|]. split.
  - intros Hin. simpl in Hin. intuition discriminate.
  - intros Hall. apply List.Forall_inv in Hall.
    destruct Hall as [rest Hrest]. simpl in Hrest. discriminate Hrest.
Qed.

(** ** Instances on concrete runs *)

(** Each lemma below runs one of the theorems above on a concrete
    request and world of the modelled store. *)

Lemma handler_rejection_propagates_witness :
  perform (designated_call findUserById Runs.bare) (db (SpecStore.start []))
    = ([], Rejected SpecStore.invalid_id) /\
  let '(w', res', out) :=
    handler findUserById Runs.bare (SpecStore.start []) fresh_response in
  out = Rejected SpecStore.invalid_id /\ res' = fresh_response /\
  log w' = (log (SpecStore.start [])
            ++ [EvDao (designated_call findUserById Runs.bare)])%list /\
  userController w' = userController (SpecStore.start []) /\
  apps w' = apps (SpecStore.start []) /\
  next_ref w' = next_ref (SpecStore.start []).
Proof.
  split; [reflexivity|].
  apply (handler_rejection_propagates findUserById Runs.bare
           (SpecStore.start []) fresh_response [] SpecStore.invalid_id).
  reflexivity.
Defined.





Lemma getInstance_idempotent_witness :
  userController (SpecStore.start []) = None /\
  let '(w1, c) := getInstance 0 (SpecStore.start []) in
  let added := new_routes 0 (SpecStore.start []) w1 in
  c = snd (new_UserController (SpecStore.start [])) /\
  next_ref w1 = next_ref (fst (new_UserController (SpecStore.start []))) /\
  next_ref w1 = S (next_ref (SpecStore.start [])) /\
  userController w1 = Some c /\
  routes_of w1 0 = (routes_of (SpecStore.start []) 0 ++ added)%list /\
  map route_handler added = all_handlers /\
  NoDup all_handlers /\
  NoDup (map (fun r => (route_method r, route_path r)) added) /\
  Forall (fun r => route_this r = c) added /\
  (forall a, 0 ≠ a -> apps w1 !! a = apps (SpecStore.start []) !! a) /\
  (forall app', getInstance app' w1 = (w1, c)) /\
  (forall l, getInstance_each l w1 = (w1, replicate (length l) c)).
Proof.
  split; [reflexivity|].
  apply (getInstance_idempotent (SpecStore.start []) 0). reflexivity.
Defined.

Lemma getInstance_ignores_later_app_witness :
  userController (SpecStore.start []) = None /\ 0 ≠ 1 /\
  let '(w1, c1) := getInstance 0 (SpecStore.start []) in
  let '(w2, c2) := getInstance 1 w1 in
  c2 = c1 /\ w2 = w1 /\
  apps w2 !! 1 = apps (SpecStore.start []) !! 1 /\
  new_routes 1 (SpecStore.start []) w2 = [] /\
  length (new_routes 0 (SpecStore.start []) w2) = 10 /\
  Forall (fun r => route_this r = c1) (new_routes 0 (SpecStore.start []) w2).
Proof.
  split; [reflexivity|]. split; [lia|].
  apply (getInstance_ignores_later_app (SpecStore.start []) 0 1);
    [reflexivity|lia].
Defined.

Lemma routes_under_api_users_witness :
  userController (SpecStore.start []) = None /\
  surface Runs.boot_routes = map under_api spec_http_surface /\
  Forall (under_prefix ["api"; "users"]) (surface Runs.boot_routes).
Proof.
  split; [reflexivity|].
  apply (routes_under_api_users (SpecStore.start []) 0). reflexivity.
Defined.

(** * Further properties of the controller *)

(** ** What a handler run touches and reads *)

Section HandlerFootprint.
Context {St : Type} `{UserDaoI St}.

Implicit Types (w : World St) (res : Response) (req : Request).

Lemma pipeline_frame c w res :
  let w' := fst (fst (then_ (userDao c) res_json w res)) in
  userController w' = userController w /\ apps w' = apps w /\
  next_ref w' = next_ref w.
Proof.
  cbv zeta. destruct (perform c (db w)) as [s' [v|e]] eqn:E.
  - rewrite (pipeline_fulfilled _ _ _ _ _ E). simpl. auto.
  - rewrite (pipeline_rejected _ _ _ _ _ E). simpl. auto.
Qed.

Lemma pipeline_counts c w res :
  let w' := fst (fst (then_ (userDao c) res_json w res)) in
  dao_calls (log w') = S (dao_calls (log w)) /\
  writes (log w) <= writes (log w') <= S (writes (log w)).
Proof.
  cbv zeta. unfold dao_calls, writes.
  destruct (perform c (db w)) as [s' [v|e]] eqn:E.
  - rewrite (pipeline_fulfilled _ _ _ _ _ E). simpl.
    rewrite !List.filter_app, !length_app. simpl. lia.
  - rewrite (pipeline_rejected _ _ _ _ _ E). simpl.
    rewrite !List.filter_app, !length_app. simpl. lia.
Qed.

Lemma designated_call_ext h req1 req2 :
  path_arg h req1 = path_arg h req2 ->
  (reads_body h = true -> body req1 = body req2) ->
  designated_call h req1 = designated_call h req2.
Proof.
  intros Hp Hb. unfold designated_call.
  destruct h; simpl in *; try reflexivity; try (by rewrite Hp);
    rewrite ?Hp, (Hb eq_refl); reflexivity.
Qed.

(** X1. No run of a member, fulfilled or rejected, touches the singleton:
    the static field [userController], the route tables of all
    applications and the object allocator are after the run what they were
    before it. *)
Theorem handler_leaves_singleton h req w res :
  let '(w', res', out) := handler h req w res in
  userController w' = userController w /\ apps w' = apps w /\
  next_ref w' = next_ref w.
Proof.
  rewrite handler_run.
  pose proof (pipeline_frame (designated_call h req) w res) as F.
  destruct (then_ (userDao (designated_call h req)) res_json w res)
    as [[w' res'] out].
  exact F.
Qed.

(** X2. A member reads nothing of the request but its own path parameter
    and, for create and update only, the body: two requests that agree on
    these give the same run, whatever their other parameters, their query
    and (for the other eight members) their bodies are. *)
Theorem handler_reads_only_its_inputs h req1 req2 w res :
  path_arg h req1 = path_arg h req2 ->
  (reads_body h = true -> body req1 = body req2) ->
  handler h req1 w res = handler h req2 w res.
Proof.
  intros Hp Hb. rewrite !handler_run.
  by rewrite (designated_call_ext h req1 req2 Hp Hb).
Qed.

Lemma getInstance_keeps_store app w :
  db (fst (getInstance app w)) = db w /\
  log (fst (getInstance app w)) = log w.
Proof.
  destruct (userController w) as [c|] eqn:E.
  - rewrite (getInstance_initialized w c app E). auto.
  - destruct (getInstance_first w app E) as (_ & _ & _ & _ & Hd & Hl). auto.
Qed.

End HandlerFootprint.

(** ** Runs of the whole process *)

Section RunFacts.
Context {St : Type} `{UserDaoI St}.

Implicit Types (w v : World St) (req : Request) (ops : list Op).

Lemma getInstance_alloc w app :
  next_ref (fst (getInstance app w))
  = match userController w with
    | None => S (next_ref w)
    | Some _ => next_ref w
    end.
Proof. unfold getInstance. destruct (userController w); reflexivity. Qed.

Lemma getInstance_sets_field w app :
  userController (fst (getInstance app w)) = Some (snd (getInstance app w)).
Proof.
  unfold getInstance. destruct (userController w) eqn:E; [exact E|reflexivity].
Qed.

Lemma register_apps_ext app m p c h w v :
  apps w = apps v ->
  apps (register app m p c h w) = apps (register app m p c h v).
Proof.
  intros E. unfold register, routes_of. cbn [apps]. by rewrite E.
Qed.

(** The route tables [getInstance] leaves depend on the singleton state
    alone. *)
Lemma getInstance_apps_ext w v app :
  userController w = userController v ->
  apps w = apps v ->
  next_ref w = next_ref v ->
  apps (fst (getInstance app w)) = apps (fst (getInstance app v)).
Proof.
  intros Hu Ha Hn. unfold getInstance. rewrite Hu.
  destruct (userController v); [exact Ha|].
  unfold new_UserController. cbv beta iota zeta. cbn [fst]. rewrite Hn.
  repeat apply register_apps_ext. exact Ha.
Qed.

Lemma serve_frame h req w :
  userController (step (Serve h req) w) = userController w /\
  apps (step (Serve h req) w) = apps w /\
  next_ref (step (Serve h req) w) = next_ref w.
Proof.
  unfold step, serve. rewrite handler_run. apply pipeline_frame.
Qed.

Lemma step_initialized op w c :
  userController w = Some c ->
  userController (step op w) = Some c /\ apps (step op w) = apps w /\
  next_ref (step op w) = next_ref w.
Proof.
  intros E. destruct op as [app|h req].
  - simpl. rewrite (getInstance_initialized w c app E). auto.
  - destruct (serve_frame h req w) as (-> & -> & ->). auto.
Qed.

Lemma run_initialized ops w c :
  userController w = Some c ->
  userController (run ops w) = Some c /\ apps (run ops w) = apps w /\
  next_ref (run ops w) = next_ref w.
Proof.
  revert w. induction ops as [|op ops IH]; intros w E; simpl.
  - auto.
  - destruct (step_initialized op w c E) as (E1 & <- & <-).
    apply IH, E1.
Qed.

(** X4. A call of [getInstance] never reaches the store: the state
    behind the DAO and the record of DAO calls and response writes are
    unchanged by it.  It constructs one controller object when the static
    field is null and none otherwise, and in both cases leaves the static
    field set to the controller it returns. *)
Theorem getInstance_footprint w app :
  db (fst (getInstance app w)) = db w /\
  log (fst (getInstance app w)) = log w /\
  next_ref (fst (getInstance app w))
    = match userController w with
      | None => S (next_ref w)
      | Some _ => next_ref w
      end /\
  userController (fst (getInstance app w)) = Some (snd (getInstance app w)).
Proof.
  destruct (getInstance_keeps_store app w) as [Hd Hl].
  split; [exact Hd|]. split; [exact Hl|].
  split; [apply getInstance_alloc|apply getInstance_sets_field].
Qed.

(** X6. The initialized state is permanent: once the static field holds
    a controller, no sequence of [getInstance] calls and served requests
    changes it, binds or removes a route on any application, or constructs
    another controller; [getInstance] keeps returning that controller. *)
Theorem singleton_is_permanent ops w c app :
  userController w = Some c ->
  userController (run ops w) = Some c /\
  apps (run ops w) = apps w /\
  next_ref (run ops w) = next_ref w /\
  getInstance app (run ops w) = (run ops w, c).
Proof.
  intros E. destruct (run_initialized ops w c E) as (Hu & Ha & Hn).
  split; [exact Hu|]. split; [exact Ha|]. split; [exact Hn|].
  by apply getInstance_initialized.
Qed.

(** X7. Over any interleaving of [getInstance] calls and served requests
    that starts with the static field null: as long as no [getInstance]
    call was made nothing is bound; otherwise the route tables are exactly
    those a single [getInstance] on the application of the first call
    leaves on the starting world, and exactly one controller was
    constructed. *)
Theorem routes_bound_once_per_run ops w :
  userController w = None ->
  match first_init ops with
  | None =>
      userController (run ops w) = None /\ apps (run ops w) = apps w /\
      next_ref (run ops w) = next_ref w
  | Some app0 =>
      userController (run ops w) = Some (next_ref w) /\
      apps (run ops w) = apps (fst (getInstance app0 w)) /\
      next_ref (run ops w) = S (next_ref w)
  end.
Proof.
  revert w. induction ops as [|op ops IH]; intros w E.
  - simpl. auto.
  - destruct op as [app|h req].
    + cbn [first_init run step].
      destruct (getInstance_first w app E) as (_ & Hs & _).
      cbv zeta in Hs.
      destruct (run_initialized ops _ _ Hs) as (Hu & Ha & Hn).
      split; [exact Hu|]. split; [exact Ha|].
      rewrite Hn, getInstance_alloc, E. reflexivity.
    + cbn [first_init run].
      destruct (serve_frame h req w) as (Fu & Fa & Fn).
      assert (E' : userController (step (Serve h req) w) = None)
        by congruence.
      specialize (IH _ E').
      destruct (first_init ops) as [app0|].
      * destruct IH as (Hu & Ha & Hn).
        rewrite Hu, Ha, Hn, Fn.
        split; [reflexivity|]. split; [|reflexivity].
        by apply getInstance_apps_ext.
      * destruct IH as (Hu & Ha & Hn).
        rewrite Hu, Ha, Hn. auto.
Qed.

(** X8. Over any interleaving of [getInstance] calls and served
    requests, the DAO is invoked once per served request, no more and no
    less, and the number of response writes is at most the number of
    requests served. *)
Theorem one_store_call_per_request ops w :
  dao_calls (log (run ops w)) = dao_calls (log w) + served ops /\
  writes (log w) <= writes (log (run ops w)) <= writes (log w) + served ops.
Proof.
  revert w. induction ops as [|op ops IH]; intros w.
  - simpl. lia.
  - destruct op as [app|h req]; cbn [run served].
    + specialize (IH (step (Init app) w)). simpl in IH.
      destruct (getInstance_keeps_store app w) as [_ Hl].
      rewrite Hl in IH. exact IH.
    + specialize (IH (step (Serve h req) w)).
      assert (C : dao_calls (log (step (Serve h req) w))
                  = S (dao_calls (log w)) /\
                  writes (log w) <= writes (log (step (Serve h req) w))
                    <= S (writes (log w))).
      { unfold step, serve. rewrite handler_run. apply pipeline_counts. }
      lia.
Qed.

End RunFacts.

(** ** Dispatch over the bound routes *)

Section Dispatch.

Lemma fold_case_lower cs a b :
  fold_case cs a = fold_case cs b -> lower a = lower b.
Proof. destruct cs; simpl; intros E; [by rewrite E|exact E]. Qed.

Lemma fold_case_empty cs s :
  String.eqb (fold_case cs s) (fold_case cs EmptyString) = String.eqb s EmptyString.
Proof. destruct cs, s; reflexivity. Qed.

(** What a pattern that has ended, or a path that has ended, still
    matches. *)
Lemma seg_match_nil_l cs u :
  seg_match cs [] u = true -> u = [] \/ u = [EmptyString].
Proof.
  destruct u as [|u0 [|u1 u]]; simpl; intros Hm; auto; [|discriminate Hm].
  apply String.eqb_eq in Hm. subst u0. auto.
Qed.

Lemma seg_match_nil_r cs p : seg_match cs p [] = true -> p = [].
Proof. destruct p as [|[s|] p]; simpl; [auto|discriminate..]. Qed.

Lemma seg_match_empty_segment cs p :
  seg_match cs p [EmptyString] = true ->
  p = [] \/ exists s, p = [Lit s] /\ String.eqb s EmptyString = true.
Proof.
  destruct p as [|[s|] p]; simpl; intros Hm; [auto| |discriminate Hm].
  apply andb_true_iff in Hm as [Hs Hp]. right. exists s.
  apply seg_match_nil_r in Hp. subst p. split; [reflexivity|].
  by rewrite fold_case_empty in Hs.
Qed.

Lemma apart_nil_l q : apart [] q = true ->
  q <> [] /\ forall s, q = [Lit s] -> String.eqb s EmptyString = false.
Proof.
  destruct q as [|[s|] [|x q]]; simpl; intros Hap;
    try discriminate Hap; (split; [discriminate|]); intros s' Hs;
    try discriminate Hs.
  injection Hs as <-. by apply negb_true_iff.
Qed.

Lemma apart_nil_r p : apart p [] = true ->
  p <> [] /\ forall s, p = [Lit s] -> String.eqb s EmptyString = false.
Proof.
  destruct p as [|[s|] [|x p]]; simpl; intros Hap;
    try discriminate Hap; (split; [discriminate|]); intros s' Hs;
    try discriminate Hs.
  injection Hs as <-. by apply negb_true_iff.
Qed.

Lemma apart_cons a p b q :
  apart (a :: p) (b :: q) = true ->
  (exists x y, a = Lit x /\ b = Lit y /\ lower x <> lower y)
  \/ apart p q = true.
Proof.
  destruct a as [x|], b as [y|], p as [|a' p], q as [|b' q];
    simpl; intros Hap; auto;
    (apply orb_true_iff in Hap as [Hne|Hap]; [left|by right]);
    exists x, y; apply negb_true_iff, String.eqb_neq in Hne; auto.
Qed.

Lemma apart_sound cs p q u :
  apart p q = true -> seg_match cs p u = true -> seg_match cs q u = false.
Proof.
  revert q u. induction p as [|a p IH]; intros q u Hap Hm.
  - apply apart_nil_l in Hap as [Hq Hlit].
    destruct (seg_match cs q u) eqn:Hq'; [exfalso|reflexivity].
    apply seg_match_nil_l in Hm as [->| ->].
    + apply seg_match_nil_r in Hq'. contradiction.
    + apply seg_match_empty_segment in Hq' as [->|(s & -> & Hs)];
        [contradiction|].
      rewrite (Hlit s eq_refl) in Hs. discriminate Hs.
  - destruct q as [|b q].
    + apply apart_nil_r in Hap as [_ Hlit].
      destruct (seg_match cs [] u) eqn:Hq'; [exfalso|reflexivity].
      apply seg_match_nil_l in Hq' as [->| ->].
      * apply seg_match_nil_r in Hm. discriminate Hm.
      * apply seg_match_empty_segment in Hm as [Hm|(s & Hm & Hs)];
          [discriminate Hm|].
        rewrite (Hlit s Hm) in Hs. discriminate Hs.
    + destruct u as [|u0 u]; [destruct b; reflexivity|].
      assert (Hp : seg_match cs p u = true).
      { destruct a; simpl in Hm; apply andb_true_iff in Hm as [_ Hm];
          exact Hm. }
      apply apart_cons in Hap as [(x & y & -> & -> & Hne)|Hap].
      * simpl in *. apply andb_true_iff in Hm as [Ha _].
        apply String.eqb_eq in Ha.
        destruct (String.eqb (fold_case cs y) (fold_case cs u0)) eqn:Hb;
          [|reflexivity].
        apply String.eqb_eq in Hb. exfalso. apply Hne.
        apply (fold_case_lower cs). congruence.
      * destruct b; simpl; rewrite (IH q u Hap Hp); apply andb_false_r.
Qed.

Lemma handles_one_method m1 m2 v :
  handles m1 v = true -> handles m2 v = true -> m1 = m2.
Proof. destruct m1, m2, v; simpl; intros H1 H2; congruence. Qed.

Lemma routes_apart_sound cs v path r1 r2 :
  routes_apart r1 r2 = true ->
  route_serves cs v path r1 = true -> route_serves cs v path r2 = false.
Proof.
  unfold routes_apart, route_serves. intros Hap Hm.
  destruct (split_slash EmptyString path) as [|[|c0 s0] segs];
    try reflexivity.
  apply andb_true_iff in Hm as [Hv Hm].
  apply orb_true_iff in Hap as [Hne|Hap].
  - apply negb_true_iff, bool_decide_eq_false in Hne.
    destruct (handles (route_method r2) v) eqn:Hv2; [|reflexivity].
    exfalso. apply Hne. exact (handles_one_method _ _ v Hv Hv2).
  - rewrite (apart_sound cs _ _ segs Hap Hm). apply andb_false_r.
Qed.

Lemma exclusive_at_most_one cs v path rs :
  exclusive rs = true ->
  length (List.filter (route_serves cs v path) rs) <= 1.
Proof.
  induction rs as [|r rs IH]; intros Hex; simpl; [lia|].
  simpl in Hex. apply andb_true_iff in Hex as [Hr Hex].
  destruct (route_serves cs v path r) eqn:Hm; [|by apply IH].
  assert (Hnone : List.filter (route_serves cs v path) rs = []).
  { clear IH Hex. induction rs as [|x rs IHrs]; [reflexivity|].
    simpl in Hr. apply andb_true_iff in Hr as [Hx Hr]. simpl.
    rewrite (routes_apart_sound cs v path r x Hx Hm). by apply IHrs. }
  rewrite Hnone. simpl. lia.
Qed.

Context {St : Type}.
Implicit Types (w : World St).

(** X3. Through its route a member always finds the parameter it reads:
    for each of the ten bindings and every request whose [params] define
    the names the route path declares, the path argument the member hands
    to the DAO is that parameter's string, never [undefined]; the three
    members without a parameter are bound to paths that declare none. *)
Theorem bound_member_gets_its_parameter w app r req :
  userController w = None ->
  In r (new_routes app w (fst (getInstance app w))) ->
  (forall n, In n (path_params (route_path r)) ->
             is_Some (params req !! n)) ->
  match route_param (route_handler r) with
  | Some n =>
      exists s, params req !! n = Some s /\
                path_arg (route_handler r) req = JStr s
  | None => path_params (route_path r) = []
  end.
Proof.
  intros E Hin Hdef.
  pose proof (bound_routes_declare_params w app E) as Hall.
  rewrite List.Forall_forall in Hall. specialize (Hall r Hin).
  unfold path_arg, param.
  destruct (route_param (route_handler r)) as [n|]; simpl in Hall.
  - destruct (Hdef n) as [s Hs]; [rewrite Hall; left; reflexivity|].
    exists s. rewrite Hs. auto.
  - exact Hall.
Qed.

(** X9. The ten bindings never compete for a request: whatever the
    method (HEAD included, which GET bindings serve) and the path (with or
    without a trailing slash), and whether or not the router distinguishes
    letter case, the handler of at most one of them is invoked. *)
Theorem bound_routes_exclusive w app cs v path :
  userController w = None ->
  length (List.filter (route_serves cs v path)
            (new_routes app w (fst (getInstance app w)))) <= 1.
Proof.
  intros E. unfold new_routes.
  destruct (getInstance_first w app E) as (_ & _ & -> & _).
  rewrite drop_app_length.
  apply exclusive_at_most_one. vm_compute. reflexivity.
Qed.

End Dispatch.

(** ** More concrete runs *)

(** Dispatch on a fresh process: a list-by-type path reaches the
    list-by-type member only, in any letter case of the literal words
    unless routing is case sensitive; a trailing slash is accepted, so a
    list-by-type path without a type reaches get-by-id; HEAD reaches the GET
    bindings; an unknown path or method reaches nothing. *)
Example dispatch_samples :
  map route_handler
      (List.filter (route_serves false VGet "/api/users/type/admin")
                   Runs.boot_routes) = [findUsersByType] /\
  map route_handler
      (List.filter (route_serves false VGet "/API/Users/type/admin")
                   Runs.boot_routes) = [findUsersByType] /\
  map route_handler
      (List.filter (route_serves true VGet "/API/Users/type/admin")
                   Runs.boot_routes) = [] /\
  map route_handler
      (List.filter (route_serves false VGet "/api/users/")
                   Runs.boot_routes) = [findAllUsers] /\
  map route_handler
      (List.filter (route_serves false VGet "/api/users/type/")
                   Runs.boot_routes) = [findUserById] /\
  map route_handler
      (List.filter (route_serves false VGet "/api/users//")
                   Runs.boot_routes) = [] /\
  map route_handler
      (List.filter (route_serves false VHead "/api/users")
                   Runs.boot_routes) = [findAllUsers] /\
  map route_handler
      (List.filter (route_serves false VDelete "/api/users")
                   Runs.boot_routes) = [deleteAllUsers] /\
  map route_handler
      (List.filter (route_serves false (VOther "OPTIONS") "/api/users")
                   Runs.boot_routes) = [] /\
  map route_handler
      (List.filter (route_serves false VGet "/users")
                   Runs.boot_routes) = [].
Proof. vm_compute. repeat split. Qed.

Lemma handler_reads_only_its_inputs_witness :
  path_arg findUserById Runs.get_42
    = path_arg findUserById Samples.noisy_get_42 /\
  (reads_body findUserById = true ->
   body Runs.get_42 = body Samples.noisy_get_42) /\
  handler findUserById Runs.get_42 (SpecStore.start [Runs.bob]) fresh_response
  = handler findUserById Samples.noisy_get_42 (SpecStore.start [Runs.bob])
      fresh_response.
Proof.
  split; [reflexivity|]. split; [intros Hb; discriminate Hb|].
  apply (handler_reads_only_its_inputs findUserById Runs.get_42
           Samples.noisy_get_42 (SpecStore.start [Runs.bob]) fresh_response).
  - reflexivity.
  - intros Hb; discriminate Hb.
Defined.

Lemma bound_member_gets_its_parameter_witness :
  userController (SpecStore.start []) = None /\
  In Samples.by_id_route Runs.boot_routes /\
  (forall n, In n (path_params (route_path Samples.by_id_route)) ->
             is_Some (params Runs.get_42 !! n)) /\
  exists s, params Runs.get_42 !! "userid" = Some s /\
            path_arg findUserById Runs.get_42 = JStr s.
Proof.
  assert (Hin : In Samples.by_id_route Runs.boot_routes)
    by (right; left; reflexivity).
  assert (Hdef : forall n,
             In n (path_params (route_path Samples.by_id_route)) ->
             is_Some (params Runs.get_42 !! n)).
  { intros n [<-|[]]. exists "42". reflexivity. }
  split; [reflexivity|]. split; [exact Hin|]. split; [exact Hdef|].
  apply (bound_member_gets_its_parameter (SpecStore.start []) 0
           Samples.by_id_route Runs.get_42 eq_refl Hin Hdef).
Defined.

Lemma singleton_is_permanent_witness :
  userController Samples.booted = Some 0 /\
  userController (run Samples.later_ops Samples.booted) = Some 0 /\
  apps (run Samples.later_ops Samples.booted) = apps Samples.booted /\
  next_ref (run Samples.later_ops Samples.booted)
    = next_ref Samples.booted /\
  getInstance 1 (run Samples.later_ops Samples.booted)
    = (run Samples.later_ops Samples.booted, 0).
Proof.
  split; [reflexivity|].
  apply (singleton_is_permanent Samples.later_ops Samples.booted 0 1).
  reflexivity.
Defined.

Lemma routes_bound_once_per_run_witness :
  userController (SpecStore.start []) = None /\
  userController (run Samples.early_ops (SpecStore.start [])) = Some 0 /\
  apps (run Samples.early_ops (SpecStore.start []))
    = apps (fst (getInstance 3 (SpecStore.start []))) /\
  next_ref (run Samples.early_ops (SpecStore.start [])) = 1.
Proof.
  split; [reflexivity|].
  apply (routes_bound_once_per_run Samples.early_ops (SpecStore.start [])).
  reflexivity.
Defined.

Lemma bound_routes_exclusive_witness :
  userController (SpecStore.start []) = None /\
  length (List.filter (route_serves false VHead "/api/users/42/")
            Runs.boot_routes) <= 1.
Proof.
  split; [reflexivity|].
  apply (bound_routes_exclusive (SpecStore.start []) 0 false VHead
           "/api/users/42/").
  reflexivity.
Defined.
